(** * Verification of [jules-scratch/verification/verify_ide.py]

    The script drives a headless browser through the Playwright
    synchronous API: it opens the local file [index.html], checks that
    five fragments of the page are visible, takes a screenshot and
    closes the browser.

    The embedding has three layers:
    - [Posixpath]: the part of Python's [os.path] that the script calls;
    - [Playwright]: the calls of the automation library that the script
      makes, as computations in a state-and-exception monad over an
      explicit environment ([World]) and machine state ([State]);
    - [VerifyIde]: the script itself, statement by statement. *)

From Stdlib Require Import NArith Ascii String.
From stdpp Require Import base tactics option list strings gmap fin_maps.

Local Open Scope string_scope.
Local Open Scope N_scope.

(** ** [os.path] on POSIX *)
Module Posixpath.

Definition sep : ascii := "/"%char.

(** [s.startswith('/')] *)
Definition startswith_sep (s : string) : bool :=
  match s with
  | String c _ => Ascii.eqb c sep
  | EmptyString => false
  end.

(** [s.endswith('/')] *)
Fixpoint endswith_sep (s : string) : bool :=
  match s with
  | EmptyString => false
  | String c EmptyString => Ascii.eqb c sep
  | String _ s' => endswith_sep s'
  end.

Definition isabs (s : string) : bool := startswith_sep s.

(** [os.path.join(a, b)] for one extra component. *)
Definition join (a b : string) : string :=
  if startswith_sep b then b
  else if (match a with EmptyString => true | _ => endswith_sep a end)
       then a +:+ b
       else a +:+ "/" +:+ b.

(** [path.split('/')] *)
Fixpoint split (s : string) : list string :=
  match s with
  | EmptyString => [EmptyString]
  | String c s' =>
      if Ascii.eqb c sep then EmptyString :: split s'
      else match split s' with
           | [] => [String c EmptyString]
           | w :: ws => String c w :: ws
           end
  end.

(** ['/'.join(comps)] *)
Fixpoint join_sep (comps : list string) : string :=
  match comps with
  | [] => EmptyString
  | [c] => c
  | c :: cs => c +:+ "/" +:+ join_sep cs
  end.

(** Number of leading slashes that [normpath] keeps: POSIX gives two
    leading slashes (and only two) a meaning of their own. *)
Definition initial_slashes (path : string) : nat :=
  match path with
  | String c1 (String c2 (String c3 _)) =>
      if Ascii.eqb c1 sep then
        if Ascii.eqb c2 sep then (if Ascii.eqb c3 sep then 1 else 2)%nat
        else 1%nat
      else 0%nat
  | String c1 (String c2 EmptyString) =>
      if Ascii.eqb c1 sep then (if Ascii.eqb c2 sep then 2 else 1)%nat
      else 0%nat
  | String c1 EmptyString => if Ascii.eqb c1 sep then 1%nat else 0%nat
  | EmptyString => 0%nat
  end.

(** One round of the loop of [normpath] over the components. *)
Definition norm_step (slashes : nat) (new_comps : list string)
           (comp : string) : list string :=
  if bool_decide (comp = EmptyString) || bool_decide (comp = ".") then new_comps
  else if negb (bool_decide (comp = ".."))
          || (bool_decide (slashes = 0%nat)
              && bool_decide (new_comps = []))
          || bool_decide (last new_comps = Some "..")
       then new_comps ++ [comp]
       else removelast new_comps.

Fixpoint slashes_string (n : nat) : string :=
  match n with
  | O => EmptyString
  | S n' => String sep (slashes_string n')
  end.

Definition normpath (path : string) : string :=
  match path with
  | EmptyString => "."
  | _ =>
      let k := initial_slashes path in
      let comps := fold_left (norm_step k) (split path) [] in
      let res := slashes_string k +:+ join_sep comps in
      match res with
      | EmptyString => "."
      | _ => res
      end
  end.

(** [os.path.abspath(path)] in a process whose working directory is
    [cwd] (the value of [os.getcwd()]). *)
Definition abspath (cwd path : string) : string :=
  normpath (if isabs path then path else join cwd path).

(** *** Paths in normal form *)

(** [sep in s] *)
Fixpoint has_sep (s : string) : bool :=
  match s with
  | EmptyString => false
  | String c s' => Ascii.eqb c sep || has_sep s'
  end.

(** A component as [normpath] leaves it: not empty, without a
    separator, and neither [.] nor [..]. *)
Definition clean (comp : string) : bool :=
  negb (has_sep comp)
  && negb (bool_decide (comp = EmptyString))
  && negb (bool_decide (comp = "."))
  && negb (bool_decide (comp = "..")).

(** The absolute path made of the given components. *)
Definition rooted (comps : list string) : string :=
  String sep (join_sep comps).

End Posixpath.

(** ** The Playwright synchronous API, as far as the script uses it

    The library is not part of the repository.  Each call the script
    makes is modelled by its documented behaviour over an explicit
    environment; the values the library fixes by default (the time an
    [expect] assertion keeps polling, whether a screenshot covers the
    scrollable page, the size of the viewport) are kept in a record so
    that the theorems about the script hold for any such values.

    Time is counted only while an assertion polls the page: the clock
    says up to when the page has been watched.  How long a call itself
    takes is not modelled, so nothing below bounds from above the time
    at which a run ends or a screenshot is captured. *)
Module Playwright.

(** A locator: [page.get_by_role(role, name=...)] or
    [page.get_by_text(text)]. *)
Inductive Locator : Type :=
| ByRole (role name : string)
| ByText (text : string).

Inductive ImageType : Type := png | jpeg.

(** A screenshot as written to disk. *)
Record Image : Type := mkImage {
  img_type : ImageType;
  img_width : N;
  img_height : N;
  img_pixels : N
}.

(** What the browser shows for a document.  [visible_from l] is the
    time in milliseconds, counted from the end of the navigation, from
    which [l] resolves to a visible element ([None]: it never does);
    [scroll_width] and [scroll_height] are the size of the scrollable
    content; [paint t full] stands for the pixels captured at time [t]. *)
Record Doc : Type := mkDoc {
  visible_from : Locator -> option N;
  scroll_width : N;
  scroll_height : N;
  paint : N -> bool -> N
}.

Definition about_blank : Doc :=
  {| visible_from := fun _ => None;
     scroll_width := 0; scroll_height := 0;
     paint := fun _ _ => 0 |}.

(** Library calls that can fail for reasons of the environment alone. *)
Inductive Call : Type :=
| sync_playwright_start
| chromium_launch
| browser_new_page
| page_screenshot
| browser_close.

(** The environment of one run of the script. *)
Record World : Type := mkWorld {
  cwd : string;                    (* os.getcwd() *)
  fetch : string -> option Doc;    (* navigation by URL; None: it fails *)
  fault : Call -> option string    (* Some msg: the call raises Error(msg) *)
}.

(** Defaults fixed by the library. *)
Record Defaults : Type := mkDefaults {
  expect_timeout : N;              (* milliseconds *)
  screenshot_full_page : bool;
  viewport_size : N * N
}.

(** The values Playwright documents: assertions retry for 5 seconds,
    [full_page] defaults to false, the viewport is 1280x720. *)
Definition playwright_defaults : Defaults :=
  {| expect_timeout := 5000;
     screenshot_full_page := false;
     viewport_size := (1280, 720) |}.

Record Env : Type := mkEnv { lib : Defaults; world : World }.

Inductive Exn : Type :=
| AssertionError (l : Locator) (timeout : N)
| Error (message : string).

(** Ghost trace of a run: every library call is logged when it is
    entered, an assertion when its outcome is known (with the timeout it
    ran with and the time at which it ended), and an exception at the
    point where it is raised. *)
Inductive Event : Type :=
| EvStart
| EvLaunch (headless : bool)
| EvNewPage
| EvGoto (url : string)
| EvExpect (l : Locator) (timeout : N) (at_ : N) (visible : bool)
| EvScreenshot (path : string) (full_page : bool)
| EvClose
| EvStop
| EvRaise (e : Exn).

Record State : Type := mkState {
  fs : gmap string Image;          (* image files on disk, by absolute path *)
  clock : N;                       (* milliseconds since the navigation *)
  document : Doc;                  (* what the page shows *)
  driver_running : bool;
  browser_running : bool;
  trace : list Event
}.

Definition initial (files : gmap string Image) : State :=
  {| fs := files; clock := 0; document := about_blank;
     driver_running := false; browser_running := false; trace := [] |}.

Inductive Outcome (A : Type) : Type :=
| Return (a : A)
| Raise (e : Exn).
Arguments Return {A} a.
Arguments Raise {A} e.

(** Computations: read the environment, thread the state, return or
    raise. *)
Definition M (A : Type) : Type := Env -> State -> Outcome A * State.

Definition ret {A} (a : A) : M A := fun _ s => (Return a, s).

Definition bind {A B} (m : M A) (k : A -> M B) : M B :=
  fun env s =>
    match m env s with
    | (Return a, s') => k a env s'
    | (Raise e, s') => (Raise e, s')
    end.

Definition get : M State := fun _ s => (Return s, s).
Definition ask : M Env := fun env s => (Return env, s).
Definition modify (f : State -> State) : M unit := fun _ s => (Return tt, f s).

Definition set_fs (v : gmap string Image) (s : State) : State :=
  {| fs := v; clock := clock s; document := document s;
     driver_running := driver_running s;
     browser_running := browser_running s; trace := trace s |}.
Definition set_clock (v : N) (s : State) : State :=
  {| fs := fs s; clock := v; document := document s;
     driver_running := driver_running s;
     browser_running := browser_running s; trace := trace s |}.
Definition set_document (v : Doc) (s : State) : State :=
  {| fs := fs s; clock := clock s; document := v;
     driver_running := driver_running s;
     browser_running := browser_running s; trace := trace s |}.
Definition set_driver_running (v : bool) (s : State) : State :=
  {| fs := fs s; clock := clock s; document := document s;
     driver_running := v;
     browser_running := browser_running s; trace := trace s |}.
Definition set_browser_running (v : bool) (s : State) : State :=
  {| fs := fs s; clock := clock s; document := document s;
     driver_running := driver_running s;
     browser_running := v; trace := trace s |}.
Definition add_event (e : Event) (s : State) : State :=
  {| fs := fs s; clock := clock s; document := document s;
     driver_running := driver_running s;
     browser_running := browser_running s; trace := trace s ++ [e] |}.

Definition log (e : Event) : M unit := modify (add_event e).

Definition raise {A} (e : Exn) : M A :=
  fun _ s => (Raise e, add_event (EvRaise e) s).

Declare Scope monad_scope.
Delimit Scope monad_scope with monad.
Notation "x <- c1 ;; c2" := (bind c1 (fun x => c2))
  (at level 100, c1 at next level, right associativity) : monad_scope.
Notation "c1 ;; c2" := (bind c1 (fun _ => c2))
  (at level 100, right associativity) : monad_scope.
Local Open Scope monad_scope.

(** Raise [Error] when the environment makes call [c] fail. *)
Definition check (c : Call) : M unit :=
  env <- ask ;;
  match fault (world env) c with
  | Some msg => raise (Error msg)
  | None => ret tt
  end.

(** Python's [with cm as x: body].  [enter] is [cm.__enter__];
    [exit exc] is [cm.__exit__], told the exception (if any) that left
    the body, and answers whether to swallow it.  When [enter] raises,
    neither the body nor [exit] runs. *)
Definition with_ {R} (enter : M R) (exit : option Exn -> M bool)
           (body : R -> M unit) : M unit :=
  fun env s =>
    match enter env s with
    | (Raise e, s1) => (Raise e, s1)
    | (Return r, s1) =>
        match body r env s1 with
        | (Return _, s2) =>
            match exit None env s2 with
            | (Return _, s3) => (Return tt, s3)
            | (Raise e', s3) => (Raise e', s3)
            end
        | (Raise e, s2) =>
            match exit (Some e) env s2 with
            | (Return true, s3) => (Return tt, s3)
            | (Return false, s3) => (Raise e, s3)
            | (Raise e', s3) => (Raise e', s3)
            end
        end
    end.

(** Handles.  A run has one driver, one browser and one page. *)
Inductive Driver : Type := the_driver.
Inductive Browser : Type := the_browser.
Inductive Page : Type := the_page.

(** [sync_playwright().__enter__()]: start the driver process. *)
Definition sync_playwright_enter : M Driver :=
  log EvStart ;;
  check sync_playwright_start ;;
  modify (set_driver_running true) ;;
  ret the_driver.

(** [sync_playwright().__exit__(...)]: stop the driver, which ends the
    browsers it launched; the exception, if any, is not swallowed. *)
Definition sync_playwright_exit (exc : option Exn) : M bool :=
  log EvStop ;;
  modify (set_browser_running false) ;;
  modify (set_driver_running false) ;;
  ret false.

(** [p.chromium.launch(headless=...)] *)
Definition launch (p : Driver) (headless : bool) : M Browser :=
  log (EvLaunch headless) ;;
  check chromium_launch ;;
  modify (set_browser_running true) ;;
  ret the_browser.

(** [browser.new_page()] *)
Definition new_page (b : Browser) : M Page :=
  log EvNewPage ;;
  check browser_new_page ;;
  modify (set_document about_blank) ;;
  ret the_page.

(** [page.goto(url)] *)
Definition goto (pg : Page) (url : string) : M unit :=
  log (EvGoto url) ;;
  env <- ask ;;
  match fetch (world env) url with
  | None => raise (Error "net::ERR_FILE_NOT_FOUND")
  | Some d => modify (set_document d) ;; modify (set_clock 0)
  end.

Definition get_by_role (pg : Page) (role name : string) : Locator :=
  ByRole role name.
Definition get_by_text (pg : Page) (text : string) : Locator :=
  ByText text.

(** [expect(locator)] *)
Definition expect (l : Locator) : Locator := l.

(** Does [l] show by the deadline, and if so when is it seen: at once
    when it already shows at time [now], else when it appears. *)
Definition seen_by (d : Doc) (l : Locator) (now deadline : N) : option N :=
  match visible_from d l with
  | Some a => if a <=? deadline then Some (N.max now a) else None
  | None => None
  end.

(** The timeout an assertion runs with: [None] means the argument is
    not given and the library default applies. *)
Definition effective_timeout (dflt : Defaults) (timeout : option N) : N :=
  match timeout with
  | Some t => t
  | None => expect_timeout dflt
  end.

(** [expect(locator).to_be_visible(timeout=...)]: poll until the
    element shows or the timeout has passed. *)
Definition to_be_visible (l : Locator) (timeout : option N) : M unit :=
  env <- ask ;;
  s <- get ;;
  let t := effective_timeout (lib env) timeout in
  let deadline := clock s + t in
  match seen_by (document s) l (clock s) deadline with
  | Some at_ => modify (set_clock at_) ;; log (EvExpect l t at_ true)
  | None =>
      modify (set_clock deadline) ;;
      log (EvExpect l t deadline false) ;;
      raise (AssertionError l t)
  end.

(** [s.endswith(suffix)] *)
Fixpoint endswith (suffix s : string) : bool :=
  if String.eqb suffix s then true
  else match s with
       | EmptyString => false
       | String _ s' => endswith suffix s'
       end.

(** The image type is inferred from the extension of the path. *)
Definition determine_screenshot_type (path : string) : option ImageType :=
  if endswith ".png" path then Some png
  else if endswith ".jpg" path || endswith ".jpeg" path then Some jpeg
  else None.

(** Size of the captured area. *)
Definition capture_size (dflt : Defaults) (d : Doc) (full : bool) : N * N :=
  let '(vw, vh) := viewport_size dflt in
  if full then (N.max vw (scroll_width d), N.max vh (scroll_height d))
  else (vw, vh).

(** The file a relative path names in this process. *)
Definition resolve (env : Env) (path : string) : string :=
  Posixpath.abspath (cwd (world env)) path.

Definition write_file (name : string) (img : Image)
           (files : gmap string Image) : gmap string Image :=
  <[name := img]> files.

(** Whether a screenshot covers the whole scrollable page: [None]
    means the argument is not given and the library default applies. *)
Definition effective_full_page (dflt : Defaults) (full_page : option bool) : bool :=
  match full_page with
  | Some b => b
  | None => screenshot_full_page dflt
  end.

(** The image captured from document [d] at time [now]. *)
Definition capture (dflt : Defaults) (d : Doc) (now : N) (ty : ImageType)
           (full : bool) : Image :=
  {| img_type := ty;
     img_width := fst (capture_size dflt d full);
     img_height := snd (capture_size dflt d full);
     img_pixels := paint d now full |}.

(** [page.screenshot(path=..., full_page=...)]: capture the page and
    write the image to [path], creating or replacing the file. *)
Definition screenshot (pg : Page) (path : string)
           (full_page : option bool) : M unit :=
  env <- ask ;;
  let full := effective_full_page (lib env) full_page in
  log (EvScreenshot path full) ;;
  check page_screenshot ;;
  match determine_screenshot_type path with
  | None => raise (Error "path: unsupported mime type")
  | Some ty =>
      s <- get ;;
      let img := capture (lib env) (document s) (clock s) ty full in
      modify (set_fs (write_file (resolve env path) img (fs s)))
  end.

(** [browser.close()] *)
Definition close (b : Browser) : M unit :=
  log EvClose ;;
  check browser_close ;;
  modify (set_browser_running false).

(** [os.path.abspath(path)] in the process of the script. *)
Definition os_path_abspath (path : string) : M string :=
  env <- ask ;;
  ret (Posixpath.abspath (cwd (world env)) path).

End Playwright.

(** ** The script *)
Module VerifyIde.
Import Playwright.
Local Open Scope monad_scope.

Definition screenshot_path : string :=
  "jules-scratch/verification/verification.png".

(** [def main()] *)
Definition main : M unit :=
  with_ sync_playwright_enter sync_playwright_exit (fun p =>
    browser <- launch p true ;;
    page <- new_page browser ;;
    absolute_path <- os_path_abspath "index.html" ;;
    goto page ("file://" +:+ absolute_path) ;;
    to_be_visible (expect (get_by_role page "heading" "Secure Scribble IDE")) None ;;
    to_be_visible (expect (get_by_text page "Test Suite Status")) None ;;
    to_be_visible (expect (get_by_text page "Protocol Editor")) None ;;
    to_be_visible (expect (get_by_text page "Role Projections")) None ;;
    to_be_visible (expect (get_by_role page "heading" "Failed Tests")) (Some 10000) ;;
    screenshot page screenshot_path None ;;
    close browser).

(** *** Vocabulary for the properties of a run *)

(** The five fragments the script checks, in program order: four
    with the default timeout, then the heading it waits for. *)
Definition heading_ide : Locator := ByRole "heading" "Secure Scribble IDE".
Definition text_status : Locator := ByText "Test Suite Status".
Definition text_editor : Locator := ByText "Protocol Editor".
Definition text_projections : Locator := ByText "Role Projections".
Definition heading_failed : Locator := ByRole "heading" "Failed Tests".

Definition first_four : list Locator :=
  [heading_ide; text_status; text_editor; text_projections].
Definition checked_fragments : list Locator := first_four ++ [heading_failed].

(** The URL of [index.html] in the working directory. *)
Definition index_url (env : Env) : string :=
  "file://" +:+ Posixpath.abspath (cwd (world env)) "index.html".

(** The file the relative screenshot path names. *)
Definition output_file (env : Env) : string := resolve env screenshot_path.

(** One run of [main] in a fresh process, with [files] on disk. *)
Definition outcome (env : Env) (files : gmap string Image) : Outcome unit :=
  fst (main env (initial files)).
Definition final (env : Env) (files : gmap string Image) : State :=
  snd (main env (initial files)).
Definition events (env : Env) (files : gmap string Image) : list Event :=
  trace (final env files).

(** [before e1 e2 tr]: [e1] occurs in [tr] and [e2] occurs later. *)
Fixpoint before (e1 e2 : Event) (tr : list Event) : Prop :=
  match tr with
  | [] => False
  | x :: tr' => (x = e1 /\ e2 ∈ tr') \/ before e1 e2 tr'
  end.

(** Running the file as a program: [if __name__ == "__main__": main()].
    The interpreter exits with status 0 when [main] returns and with
    status 1 when an exception leaves it. *)
Definition script : Env -> State -> N * State :=
  fun env s =>
    match main env s with
    | (Return _, s') => (0, s')
    | (Raise _, s') => (1, s')
    end.

(** The exit status of a run of the script in a fresh process. *)
Definition exit_status (env : Env) (files : gmap string Image) : N :=
  fst (script env (initial files)).

(** The assertions of a trace, each with its outcome. *)
Definition expects (tr : list Event) : list (Locator * bool) :=
  omap (fun e => match e with
                 | EvExpect l _ _ v => Some (l, v)
                 | _ => None
                 end) tr.

(** [in_program_order seen program]: the assertions [seen] are those of
    [program], from the first one on and in the same order, and a
    failed one is the last. *)
Fixpoint in_program_order (seen : list (Locator * bool))
         (program : list Locator) : Prop :=
  match seen, program with
  | [], _ => True
  | (l, v) :: seen', l' :: program' =>
      l = l' /\ (if v then in_program_order seen' program' else seen' = [])
  | _ :: _, [] => False
  end.

End VerifyIde.

(** ** Concrete fixtures *)
Module Fixtures.
Import Playwright VerifyIde.

Definition locator_eqb (l1 l2 : Locator) : bool :=
  match l1, l2 with
  | ByRole r1 n1, ByRole r2 n2 => String.eqb r1 r2 && String.eqb n1 n2
  | ByText t1, ByText t2 => String.eqb t1 t2
  | _, _ => false
  end.

(** A page given by the time from which each of its fragments shows,
    and by the height of its content. *)
Fixpoint shows (fragments : list (Locator * N)) (l : Locator) : option N :=
  match fragments with
  | [] => None
  | (l', a) :: rest => if locator_eqb l' l then Some a else shows rest l
  end.

Definition page (fragments : list (Locator * N)) (height : N) : Doc :=
  {| visible_from := shows fragments;
     scroll_width := 1280;
     scroll_height := height;
     paint := fun now full => if full then height else 720 |}.

(** A checkout of the repository in [/home/dev/SMPST] whose
    [index.html] renders as [d]; no call fails for outside reasons. *)
Definition checkout (d : Doc) : Env :=
  {| lib := playwright_defaults;
     world :=
       {| cwd := "/home/dev/SMPST";
          fetch := fun url =>
            if String.eqb url "file:///home/dev/SMPST/index.html"
            then Some d else None;
          fault := fun _ => None |} |}.

(** The same checkout without any [index.html]. *)
Definition empty_checkout : Env :=
  {| lib := playwright_defaults;
     world := {| cwd := "/home/dev/SMPST";
                 fetch := fun _ => None;
                 fault := fun _ => None |} |}.

(** All five fragments show as soon as the page is loaded. *)
Definition complete_page : Doc :=
  page [(heading_ide, 0); (text_status, 0); (text_editor, 0);
        (text_projections, 0); (heading_failed, 0)] 600.

(** The same, with content taller than the viewport. *)
Definition tall_page : Doc :=
  page [(heading_ide, 0); (text_status, 0); (text_editor, 0);
        (text_projections, 0); (heading_failed, 0)] 2000.

(** "Test Suite Status" is missing. *)
Definition page_without_status : Doc :=
  page [(heading_ide, 0); (text_editor, 0);
        (text_projections, 0); (heading_failed, 0)] 600.

(** The title shows after 3 seconds and "Failed Tests" after 12. *)
Definition slow_page : Doc :=
  page [(heading_ide, 3000); (text_status, 0); (text_editor, 0);
        (text_projections, 0); (heading_failed, 12000)] 600.

(** Four fragments show at once, "Failed Tests" just after 10 seconds. *)
Definition late_heading_page : Doc :=
  page [(heading_ide, 0); (text_status, 0); (text_editor, 0);
        (text_projections, 0); (heading_failed, 10001)] 600.

(** An image left by an earlier run, and a disk that holds it where
    the script writes its screenshot. *)
Definition stale_image : Image :=
  {| img_type := png; img_width := 1; img_height := 1; img_pixels := 42 |}.

Definition stale_disk : gmap string Image :=
  {[ "/home/dev/SMPST/jules-scratch/verification/verification.png"
     := stale_image ]}.

(** The same page, rendered with other pixels. *)
Definition repainted (d : Doc) : Doc :=
  {| visible_from := visible_from d;
     scroll_width := scroll_width d;
     scroll_height := scroll_height d;
     paint := fun now full => paint d now full + 1 |}.

(** A checkout in which closing the browser fails. *)
Definition checkout_failing_close (d : Doc) : Env :=
  {| lib := playwright_defaults;
     world :=
       {| cwd := "/home/dev/SMPST";
          fetch := fetch (world (checkout d));
          fault := fun c => match c with
                            | browser_close => Some "Target closed"
                            | _ => None
                            end |} |}.

End Fixtures.

(** * Properties *)

(** ** Paths *)
Section PosixpathFacts.
Import Posixpath.

Lemma initial_slashes_abs path :
  isabs path = true -> (1 <= initial_slashes path)%nat.
Proof.
  destruct path as [|c1 [|c2 [|c3 rest]]]; cbn; try discriminate;
    intros ->; repeat case_match; lia.
Qed.

Lemma normpath_abs path : isabs path = true -> isabs (normpath path) = true.
Proof.
  intros Habs. pose proof (initial_slashes_abs path Habs) as Hk.
  unfold normpath. destruct path as [|c rest]; [discriminate|].
  cbv zeta. destruct (initial_slashes (String c rest)) as [|k]; [lia|].
  reflexivity.
Qed.

Lemma join_abs a b : isabs a = true -> isabs (join a b) = true.
Proof.
  unfold join. intros Ha. destruct (startswith_sep b) eqn:Hb; [exact Hb|].
  destruct a as [|c a']; [discriminate|].
  destruct (endswith_sep (String c a')); exact Ha.
Qed.

Lemma abspath_abs cwd path : isabs cwd = true -> isabs (abspath cwd path) = true.
Proof.
  intros Hcwd. unfold abspath. apply normpath_abs.
  destruct (isabs path) eqn:Hp; [exact Hp|]. by apply join_abs.
Qed.

Example abspath_index_html :
  abspath "/home/dev/SMPST" "index.html" = "/home/dev/SMPST/index.html".
Proof. vm_compute. reflexivity. Qed.

Example abspath_at_root : abspath "/" "index.html" = "/index.html".
Proof. vm_compute. reflexivity. Qed.

End PosixpathFacts.

(** ** One equation per library call *)
Import Playwright VerifyIde.

Section Calls.


Lemma bind_run {A B} (m : M A) (k : A -> M B) env s :
  bind m k env s =
  match m env s with
  | (Return a, s') => k a env s'
  | (Raise e, s') => (Raise e, s')
  end.
Proof. reflexivity. Qed.

Ltac call_steps :=
  repeat (rewrite ?bind_run; cbn [log modify ask get ret raise]).

Lemma check_run c env s :
  check c env s =
  match fault (world env) c with
  | Some msg => (Raise (Error msg), add_event (EvRaise (Error msg)) s)
  | None => (Return tt, s)
  end.
Proof. unfold check, bind, ask. by destruct (fault (world env) c). Qed.

Lemma sync_playwright_enter_run env s :
  sync_playwright_enter env s =
  match fault (world env) sync_playwright_start with
  | Some msg =>
      (Raise (Error msg), add_event (EvRaise (Error msg)) (add_event EvStart s))
  | None => (Return the_driver, set_driver_running true (add_event EvStart s))
  end.
Proof.
  unfold sync_playwright_enter. call_steps. rewrite check_run.
  destruct (fault (world env) sync_playwright_start); call_steps; reflexivity.
Qed.

Lemma sync_playwright_exit_run exc env s :
  sync_playwright_exit exc env s =
  (Return false,
   set_driver_running false (set_browser_running false (add_event EvStop s))).
Proof. reflexivity. Qed.

Lemma launch_run p headless env s :
  launch p headless env s =
  match fault (world env) chromium_launch with
  | Some msg =>
      (Raise (Error msg),
       add_event (EvRaise (Error msg)) (add_event (EvLaunch headless) s))
  | None =>
      (Return the_browser,
       set_browser_running true (add_event (EvLaunch headless) s))
  end.
Proof.
  unfold launch. call_steps. rewrite check_run.
  destruct (fault (world env) chromium_launch); call_steps; reflexivity.
Qed.

Lemma new_page_run b env s :
  new_page b env s =
  match fault (world env) browser_new_page with
  | Some msg =>
      (Raise (Error msg), add_event (EvRaise (Error msg)) (add_event EvNewPage s))
  | None => (Return the_page, set_document about_blank (add_event EvNewPage s))
  end.
Proof.
  unfold new_page. call_steps. rewrite check_run.
  destruct (fault (world env) browser_new_page); call_steps; reflexivity.
Qed.

Lemma os_path_abspath_run path env s :
  os_path_abspath path env s =
  (Return (Posixpath.abspath (cwd (world env)) path), s).
Proof. reflexivity. Qed.

Lemma goto_run pg url env s :
  goto pg url env s =
  match fetch (world env) url with
  | Some d =>
      (Return tt, set_clock 0 (set_document d (add_event (EvGoto url) s)))
  | None =>
      (Raise (Error "net::ERR_FILE_NOT_FOUND"),
       add_event (EvRaise (Error "net::ERR_FILE_NOT_FOUND"))
                 (add_event (EvGoto url) s))
  end.
Proof.
  unfold goto. call_steps.
  destruct (fetch (world env) url); call_steps; reflexivity.
Qed.

Lemma to_be_visible_run l timeout env s :
  to_be_visible l timeout env s =
  let t := effective_timeout (lib env) timeout in
  match seen_by (document s) l (clock s) (clock s + t) with
  | Some at_ =>
      (Return tt, add_event (EvExpect l t at_ true) (set_clock at_ s))
  | None =>
      (Raise (AssertionError l t),
       add_event (EvRaise (AssertionError l t))
         (add_event (EvExpect l t (clock s + t) false)
                    (set_clock (clock s + t) s)))
  end.
Proof.
  unfold to_be_visible. call_steps. cbv zeta.
  destruct (seen_by (document s) l (clock s) _); call_steps; reflexivity.
Qed.


Lemma screenshot_run pg path full_page ty env s :
  determine_screenshot_type path = Some ty ->
  screenshot pg path full_page env s =
  let full := effective_full_page (lib env) full_page in
  let s1 := add_event (EvScreenshot path full) s in
  match fault (world env) page_screenshot with
  | Some msg => (Raise (Error msg), add_event (EvRaise (Error msg)) s1)
  | None =>
      (Return tt,
       set_fs (write_file (resolve env path)
                 (capture (lib env) (document s) (clock s) ty full) (fs s))
              s1)
  end.
Proof.
  intros Hty. unfold screenshot. call_steps. cbv zeta. call_steps.
  rewrite check_run.
  destruct (fault (world env) page_screenshot); call_steps; [reflexivity|].
  rewrite Hty. call_steps. reflexivity.
Qed.

Lemma close_run b env s :
  close b env s =
  match fault (world env) browser_close with
  | Some msg =>
      (Raise (Error msg), add_event (EvRaise (Error msg)) (add_event EvClose s))
  | None => (Return tt, set_browser_running false (add_event EvClose s))
  end.
Proof.
  unfold close. call_steps. rewrite check_run.
  destruct (fault (world env) browser_close); call_steps; reflexivity.
Qed.
End Calls.

(** ** Running [main] symbolically

    [main] is straight-line code: a run is decided by which library
    call (if any) fails first.  [explore] replaces the run in the goal
    by each of these cases in turn, with the trace written out. *)

Lemma screenshot_path_type : determine_screenshot_type screenshot_path = Some png.
Proof. reflexivity. Qed.

Ltac state_simpl :=
  cbn [fs clock document driver_running browser_running trace
       set_fs set_clock set_document set_driver_running set_browser_running
       add_event initial app effective_timeout effective_full_page].

Ltac run_step :=
  first
    [ rewrite bind_run
    | rewrite sync_playwright_enter_run
    | rewrite sync_playwright_exit_run
    | rewrite launch_run
    | rewrite new_page_run
    | rewrite os_path_abspath_run
    | rewrite goto_run
    | rewrite to_be_visible_run
    | rewrite (screenshot_run _ _ _ png) by exact screenshot_path_type
    | rewrite close_run ];
  cbv beta iota zeta; state_simpl.

Ltac run_case :=
  match goal with
  | |- context [match fault ?w ?c with _ => _ end] =>
      destruct (fault w c) eqn:?
  | |- context [match fetch ?w ?u with _ => _ end] =>
      destruct (fetch w u) eqn:?
  | |- context [match seen_by ?d ?l ?a ?b with _ => _ end] =>
      destruct (seen_by d l a b) eqn:?
  end;
  cbv beta iota zeta; state_simpl.

Ltac run_main :=
  unfold main, with_, expect, get_by_role, get_by_text;
  repeat first [run_step | run_case].

Ltac explore :=
  unfold exit_status, events, outcome, final, script;
  match goal with
  | |- context [main ?env (initial ?files)] =>
      let r := fresh "r" in
      let Hr := fresh "Hr" in
      remember (main env (initial files)) as r eqn:Hr;
      revert Hr; run_main; intros ->;
      cbv beta iota; cbn [fst snd]; state_simpl
  end.

(** Membership in, and order within, a trace that is written out. *)
Ltac elem_here :=
  repeat first [apply list_elem_of_here | apply list_elem_of_further].

Ltac find_before :=
  cbn [before];
  repeat first [left; split; [reflexivity | solve [elem_here]] | right].

Ltac elems H := set_unfold in H; destruct_or?; simplify_eq.

Ltac fragments :=
  unfold checked_fragments, first_four, heading_ide, text_status,
    text_editor, text_projections, heading_failed in *;
  cbn [app] in *.

(** An assertion that was polled until [deadline] and gave up means
    the fragment does not show by then. *)
Lemma seen_by_None d l now deadline :
  seen_by d l now deadline = None ->
  forall a, visible_from d l = Some a -> deadline < a.
Proof.
  unfold seen_by. intros H a Ha. rewrite Ha in H.
  destruct (a <=? deadline) eqn:Hle; [discriminate|].
  by apply N.leb_gt.
Qed.

Lemma seen_by_Some d l now deadline at_ :
  seen_by d l now deadline = Some at_ ->
  exists a, visible_from d l = Some a /\ a <= deadline /\ at_ = N.max now a.
Proof.
  unfold seen_by. intros H. destruct (visible_from d l) as [a|]; [|discriminate].
  destruct (a <=? deadline) eqn:Hle; [|discriminate].
  exists a. split; [reflexivity|]. split; [by apply N.leb_le | congruence].
Qed.

(** ** Properties of a run *)

(** C1. If any of the five visibility assertions fails, [main] ends
    with that assertion failure, the screenshot step is never reached
    and no file is written; and whenever the screenshot step is reached,
    each of the five assertions has passed before it. *)
Theorem failed_assertion_aborts_before_screenshot env files :
  (forall l t a,
      EvExpect l t a false ∈ events env files ->
      outcome env files = Raise (AssertionError l t) /\
      (forall p f, EvScreenshot p f ∉ events env files) /\
      fs (final env files) = files) /\
  (forall p f,
      EvScreenshot p f ∈ events env files ->
      forall l, l ∈ checked_fragments ->
        exists t a, before (EvExpect l t a true) (EvScreenshot p f)
                      (events env files)).
Proof.
  explore; fragments.
  all: split; [intros l t a Hin | intros p f Hin l Hl].
  all: elems Hin.
  all: try (split; [reflexivity|]; split; [|reflexivity];
            intros p f Hp; elems Hp).
  all: elems Hl; do 2 eexists; find_before.
Qed.

(** C3. [browser.close()] comes last in the body of [main]: a run in
    which a visibility assertion fails never reaches it, and a run that
    reaches it has seen all five assertions pass and the screenshot
    written before. *)
Theorem close_only_after_full_success env files :
  (forall l t a,
      EvExpect l t a false ∈ events env files ->
      EvClose ∉ events env files) /\
  (EvClose ∈ events env files ->
     (forall l, l ∈ checked_fragments ->
        exists t a, before (EvExpect l t a true) EvClose (events env files)) /\
     (exists f, before (EvScreenshot screenshot_path f) EvClose
                  (events env files)) /\
     (exists img, fs (final env files)
                  = write_file (output_file env) img files)) /\
  (outcome env files = Return tt -> EvClose ∈ events env files).
Proof.
  explore; fragments.
  all: split; [intros l t a Hin; elems Hin; intros Hc; elems Hc|].
  all: split; [intros Hin; elems Hin | intros Hout; try discriminate].
  all: try solve [elem_here].
  all: split; [intros l Hl; elems Hl; do 2 eexists; find_before|].
  all: split; [eexists; find_before | eexists; reflexivity].
Qed.

(** C5. For a working directory given by an absolute path, the script
    turns the relative name [index.html] into an absolute path below
    it and navigates to that path under the [file://] scheme; this is
    the only navigation of a run and it precedes every assertion.
    The navigation does happen once the driver, the browser and the
    page have started, and when it finds the file, the page shows that
    document and the first assertion runs after it. *)
Theorem index_html_loaded_before_assertions env files :
  Posixpath.isabs (cwd (world env)) = true ->
  index_url env
  = "file://" +:+
    Posixpath.normpath (Posixpath.join (cwd (world env)) "index.html") /\
  Posixpath.isabs (Posixpath.abspath (cwd (world env)) "index.html") = true /\
  (forall url, EvGoto url ∈ events env files -> url = index_url env) /\
  (forall l t a v,
      EvExpect l t a v ∈ events env files ->
      before (EvGoto (index_url env)) (EvExpect l t a v) (events env files)) /\
  (fault (world env) sync_playwright_start = None ->
   fault (world env) chromium_launch = None ->
   fault (world env) browser_new_page = None ->
   EvGoto (index_url env) ∈ events env files /\
   (forall d, fetch (world env) (index_url env) = Some d ->
      document (final env files) = d /\
      exists t a v,
        before (EvGoto (index_url env)) (EvExpect heading_ide t a v)
               (events env files))).
Proof.
  intros Hcwd. split; [reflexivity|].
  split; [by apply abspath_abs|].
  unfold index_url. explore; fragments.
  all: split; [intros url Hin; elems Hin; reflexivity|].
  all: split; [intros l t a v Hin; elems Hin; find_before|].
  all: intros H1 H2 H3; try congruence.
  all: split; [elem_here|].
  all: intros d' Hd; try congruence; simplify_eq.
  all: split; [reflexivity|]; do 3 eexists; find_before.
Qed.

(** C7. Nothing in the script handles an exception.  Whatever a
    library call raises is what leaves [main], and the process then
    exits with status 1; a run in which no call raises returns and
    exits with status 0.  A failed visibility check, a navigation to a
    missing file and a failed browser launch each raise. *)
Theorem failures_reach_the_exit_status env files :
  (forall e, EvRaise e ∈ events env files ->
             outcome env files = Raise e /\ exit_status env files = 1) /\
  ((forall e, EvRaise e ∉ events env files) ->
   outcome env files = Return tt /\ exit_status env files = 0) /\
  (forall l t a, EvExpect l t a false ∈ events env files ->
                 EvRaise (AssertionError l t) ∈ events env files) /\
  (forall url, EvGoto url ∈ events env files ->
               fetch (world env) url = None ->
               EvRaise (Error "net::ERR_FILE_NOT_FOUND") ∈ events env files) /\
  (forall h msg, EvLaunch h ∈ events env files ->
                 fault (world env) chromium_launch = Some msg ->
                 EvRaise (Error msg) ∈ events env files).
Proof.
  explore.
  all: split; [intros e Hin; elems Hin; split; reflexivity|].
  all: split;
    [intros Hno; try (split; reflexivity);
     exfalso; eapply Hno; elem_here|].
  all: split; [intros l t a Hin; elems Hin; elem_here|].
  all: split; [intros url Hin Hf; elems Hin; try congruence; elem_here|].
  all: intros h msg Hin Hf; elems Hin; try congruence.
  all: elem_here.
Qed.


(** C10. Every run leaves the [with] statement through the exit of the
    context manager: when [main] returns or raises, the driver is
    stopped and no browser is left running.  Once the driver has been
    started, stopping it is the last thing that happens, after any
    exception was raised; so it is when a visibility assertion fails,
    although [browser.close()] is then skipped. *)
Theorem driver_stopped_on_every_path env files :
  driver_running (final env files) = false /\
  browser_running (final env files) = false /\
  (fault (world env) sync_playwright_start = None ->
   last (events env files) = Some EvStop /\
   (forall e, EvRaise e ∈ events env files ->
              before (EvRaise e) EvStop (events env files))) /\
  (forall l t a,
      EvExpect l t a false ∈ events env files ->
      outcome env files = Raise (AssertionError l t) /\
      (EvClose ∉ events env files) /\
      before (EvRaise (AssertionError l t)) EvStop (events env files) /\
      last (events env files) = Some EvStop).
Proof.
  explore.
  all: split; [reflexivity|]; split; [reflexivity|].
  all: split;
    [intros Hs;
     first [congruence
           | split; [reflexivity | intros e Hin; elems Hin; find_before]]|].
  all: intros l t a Hin; elems Hin.
  all: split; [reflexivity|].
  all: split; [intros Hc; elems Hc|].
  all: split; [find_before | reflexivity].
Qed.

(** A run that returns has written the capture of the loaded document
    to the output file, and nothing else. *)
Lemma success_writes env files :
  outcome env files = Return tt ->
  exists d now,
    fetch (world env) (index_url env) = Some d /\
    fs (final env files)
    = write_file (output_file env)
        (capture (lib env) d now png (screenshot_full_page (lib env))) files.
Proof.
  unfold index_url. explore; intros Hout; try discriminate.
  eauto.
Qed.

(** A run that returns has gone through the screenshot step. *)
Lemma success_reaches_screenshot env files :
  outcome env files = Return tt ->
  EvScreenshot screenshot_path (screenshot_full_page (lib env))
    ∈ events env files.
Proof.
  explore; intros Hout; try discriminate.
  elem_here.
Qed.

(** C6. A run that succeeds has gone through the screenshot step and
    changes the disk in exactly one place: the file
    [jules-scratch/verification/verification.png] below the working
    directory now holds the image captured from the loaded document, a
    PNG, whatever was in a file of that name before; every other file
    is as it was. *)
Theorem success_writes_one_png env files :
  outcome env files = Return tt ->
  output_file env
  = Posixpath.abspath (cwd (world env))
      "jules-scratch/verification/verification.png" /\
  EvScreenshot screenshot_path (screenshot_full_page (lib env))
    ∈ events env files /\
  exists d now,
    fetch (world env) (index_url env) = Some d /\
    img_type (capture (lib env) d now png (screenshot_full_page (lib env)))
    = png /\
    fs (final env files)
    = <[output_file env
        := capture (lib env) d now png (screenshot_full_page (lib env))]>
        files /\
    fs (final env files) !! output_file env
    = Some (capture (lib env) d now png (screenshot_full_page (lib env))) /\
    (forall q, q ≠ output_file env ->
               fs (final env files) !! q = files !! q).
Proof.
  intros Hout. split; [reflexivity|].
  split; [by apply success_reaches_screenshot|].
  destruct (success_writes env files Hout) as (d & now & Hd & ->).
  unfold write_file. exists d, now.
  split; [exact Hd|]. split; [reflexivity|].
  split; [reflexivity|]. split; [apply lookup_insert_eq|].
  intros q Hq. by apply lookup_insert_ne.
Qed.

(** C8. Two successful runs from the same working directory write the
    same file: after the second run that file holds the image the
    second run captured from the document it loaded, in place of the
    image of the first run, and the disk holds the same set of files as
    after the first run.  The two images need not be equal. *)
Theorem rerun_overwrites_same_file env1 env2 files :
  cwd (world env1) = cwd (world env2) ->
  outcome env1 files = Return tt ->
  outcome env2 (fs (final env1 files)) = Return tt ->
  output_file env2 = output_file env1 /\
  exists d1 now1 d2 now2,
    fetch (world env1) (index_url env1) = Some d1 /\
    fetch (world env2) (index_url env2) = Some d2 /\
    fs (final env1 files)
    = <[output_file env1
        := capture (lib env1) d1 now1 png (screenshot_full_page (lib env1))]>
        files /\
    fs (final env2 (fs (final env1 files)))
    = <[output_file env1
        := capture (lib env2) d2 now2 png (screenshot_full_page (lib env2))]>
        files /\
    fs (final env2 (fs (final env1 files))) !! output_file env1
    = Some (capture (lib env2) d2 now2 png (screenshot_full_page (lib env2))) /\
    dom (fs (final env2 (fs (final env1 files))))
    = dom (fs (final env1 files)).
Proof.
  intros Hcwd Hout1 Hout2.
  assert (Hfile : output_file env2 = output_file env1).
  { unfold output_file, resolve. by rewrite Hcwd. }
  split; [exact Hfile|].
  destruct (success_writes env2 _ Hout2) as (d2 & now2 & Hd2 & ->).
  destruct (success_writes env1 _ Hout1) as (d1 & now1 & Hd1 & ->).
  rewrite Hfile. unfold write_file. exists d1, now1, d2, now2.
  split; [exact Hd1|]. split; [exact Hd2|].
  split; [reflexivity|]. rewrite insert_insert_eq.
  split; [reflexivity|]. split; [apply lookup_insert_eq|].
  rewrite !dom_insert_L. reflexivity.
Qed.

(** C4, as amended.  The 10000 milliseconds of the fifth assertion are
    counted from the moment the fourth assertion has passed, at time
    [t4] after the page was loaded: when the "Failed Tests" heading
    does not show within 10000 milliseconds of that moment, the fifth
    assertion gives up at [t4 + 10000], [main] ends with its failure
    and the screenshot step is not reached. *)
Theorem failed_tests_wait_counts_from_its_start env files d t4 :
  fetch (world env) (index_url env) = Some d ->
  EvExpect text_projections (expect_timeout (lib env)) t4 true
    ∈ events env files ->
  (forall a, visible_from d heading_failed = Some a -> t4 + 10000 < a) ->
  outcome env files = Raise (AssertionError heading_failed 10000) /\
  EvExpect heading_failed 10000 (t4 + 10000) false ∈ events env files /\
  (forall p f, EvScreenshot p f ∉ events env files).
Proof.
  unfold index_url. explore; fragments.
  all: intros Hd Hin Hlate; elems Hin.
  all: try match goal with
       | H : seen_by _ (ByRole "heading" "Failed Tests") _ _ = Some _ |- _ =>
           apply seen_by_Some in H as (a & Ha & Hle & _);
           apply Hlate in Ha; lia
       end.
  split; [reflexivity|]. split; [elem_here|].
  intros p f Hp; elems Hp.
Qed.

(** The script never says whether the screenshot covers the whole
    page: the area captured is the one the library picks by default. *)
Lemma screenshot_uses_library_default env files p f :
  EvScreenshot p f ∈ events env files ->
  p = screenshot_path /\ f = screenshot_full_page (lib env).
Proof.
  explore.
  all: intros Hin; elems Hin; split; reflexivity.
Qed.

(** ** Concrete runs *)
Import Fixtures.

(** The complete page: every step succeeds. *)
Example run_complete_page :
  outcome (checkout complete_page) ∅ = Return tt /\
  exit_status (checkout complete_page) ∅ = 0 /\
  events (checkout complete_page) ∅
  = [EvStart; EvLaunch true; EvNewPage;
     EvGoto "file:///home/dev/SMPST/index.html";
     EvExpect heading_ide 5000 0 true;
     EvExpect text_status 5000 0 true;
     EvExpect text_editor 5000 0 true;
     EvExpect text_projections 5000 0 true;
     EvExpect heading_failed 10000 0 true;
     EvScreenshot "jules-scratch/verification/verification.png" false;
     EvClose; EvStop] /\
  fs (final (checkout complete_page) ∅)
    !! "/home/dev/SMPST/jules-scratch/verification/verification.png"
  = Some {| img_type := png; img_width := 1280; img_height := 720;
            img_pixels := 720 |}.
Proof. repeat apply conj; vm_compute; reflexivity. Qed.

(** A page without "Test Suite Status": the second assertion gives up
    after the default 5 seconds. *)
Example run_page_without_status :
  outcome (checkout page_without_status) ∅
  = Raise (AssertionError text_status 5000) /\
  exit_status (checkout page_without_status) ∅ = 1 /\
  fs (final (checkout page_without_status) ∅) = ∅ /\
  events (checkout page_without_status) ∅
  = [EvStart; EvLaunch true; EvNewPage;
     EvGoto "file:///home/dev/SMPST/index.html";
     EvExpect heading_ide 5000 0 true;
     EvExpect text_status 5000 5000 false;
     EvRaise (AssertionError text_status 5000);
     EvStop].
Proof. repeat apply conj; vm_compute; reflexivity. Qed.

(** No [index.html] in the working directory: the navigation raises. *)
Example run_without_index_html :
  outcome empty_checkout ∅ = Raise (Error "net::ERR_FILE_NOT_FOUND") /\
  exit_status empty_checkout ∅ = 1 /\
  events empty_checkout ∅
  = [EvStart; EvLaunch true; EvNewPage;
     EvGoto "file:///home/dev/SMPST/index.html";
     EvRaise (Error "net::ERR_FILE_NOT_FOUND");
     EvStop].
Proof. repeat apply conj; vm_compute; reflexivity. Qed.

(** C2, at a page taller than the viewport.  The script passes no
    [full_page] argument, so the library default applies: the image is
    720 pixels high, the size of the viewport, while the content of the
    page is 2000 pixels high. *)
Theorem screenshot_of_tall_page_is_viewport_sized :
  scroll_height tall_page = 2000 /\
  outcome (checkout tall_page) ∅ = Return tt /\
  EvScreenshot screenshot_path false ∈ events (checkout tall_page) ∅ /\
  fs (final (checkout tall_page) ∅) !! output_file (checkout tall_page)
  = Some {| img_type := png; img_width := 1280; img_height := 720;
            img_pixels := 720 |}.
Proof.
  split; [reflexivity|]. split; [vm_compute; reflexivity|].
  split; [vm_compute; elem_here|].
  vm_compute. reflexivity.
Qed.

(** C4, as stated, fails at [slow_page].  Its "Failed Tests" heading
    shows 12000 milliseconds after the page is loaded, more than the
    timeout of 10000; but the first assertion has waited 3000
    milliseconds for the title, so the fifth one polls until 13000 and
    passes.  The run succeeds. *)
Lemma delayed_heading_still_passes :
  fetch (world (checkout slow_page)) (index_url (checkout slow_page))
  = Some slow_page /\
  visible_from slow_page heading_failed = Some 12000 /\
  10000 < 12000 /\
  outcome (checkout slow_page) ∅ = Return tt /\
  exit_status (checkout slow_page) ∅ = 0 /\
  EvExpect heading_failed 10000 12000 true ∈ events (checkout slow_page) ∅.
Proof.
  split; [reflexivity|]. split; [reflexivity|]. split; [reflexivity|].
  split; [vm_compute; reflexivity|]. split; [vm_compute; reflexivity|].
  vm_compute. elem_here.
Qed.

Lemma failed_tests_wait_counts_from_its_start_witness :
  outcome (checkout late_heading_page) ∅
  = Raise (AssertionError heading_failed 10000) /\
  EvExpect heading_failed 10000 (0 + 10000) false
    ∈ events (checkout late_heading_page) ∅ /\
  (forall p f, EvScreenshot p f ∉ events (checkout late_heading_page) ∅).
Proof.
  apply (failed_tests_wait_counts_from_its_start
           (checkout late_heading_page) ∅ late_heading_page 0).
  - reflexivity.
  - vm_compute. elem_here.
  - intros a Ha. vm_compute in Ha. injection Ha as <-. reflexivity.
Defined.

Lemma index_html_loaded_before_assertions_witness :
  index_url (checkout complete_page)
  = "file://" +:+
    Posixpath.normpath (Posixpath.join "/home/dev/SMPST" "index.html") /\
  Posixpath.isabs (Posixpath.abspath "/home/dev/SMPST" "index.html") = true /\
  (forall url, EvGoto url ∈ events (checkout complete_page) ∅ ->
               url = index_url (checkout complete_page)) /\
  (forall l t a v,
      EvExpect l t a v ∈ events (checkout complete_page) ∅ ->
      before (EvGoto (index_url (checkout complete_page)))
             (EvExpect l t a v) (events (checkout complete_page) ∅)) /\
  (fault (world (checkout complete_page)) sync_playwright_start = None ->
   fault (world (checkout complete_page)) chromium_launch = None ->
   fault (world (checkout complete_page)) browser_new_page = None ->
   EvGoto (index_url (checkout complete_page))
     ∈ events (checkout complete_page) ∅ /\
   (forall d,
      fetch (world (checkout complete_page))
            (index_url (checkout complete_page)) = Some d ->
      document (final (checkout complete_page) ∅) = d /\
      exists t a v,
        before (EvGoto (index_url (checkout complete_page)))
               (EvExpect heading_ide t a v)
               (events (checkout complete_page) ∅))).
Proof.
  apply (index_html_loaded_before_assertions (checkout complete_page) ∅).
  reflexivity.
Defined.

Lemma success_writes_one_png_witness :
  output_file (checkout complete_page)
  = Posixpath.abspath "/home/dev/SMPST"
      "jules-scratch/verification/verification.png" /\
  EvScreenshot screenshot_path false
    ∈ events (checkout complete_page) stale_disk /\
  exists d now,
    fetch (world (checkout complete_page)) (index_url (checkout complete_page))
    = Some d /\
    img_type (capture playwright_defaults d now png false) = png /\
    fs (final (checkout complete_page) stale_disk)
    = <[output_file (checkout complete_page)
        := capture playwright_defaults d now png false]> stale_disk /\
    fs (final (checkout complete_page) stale_disk)
      !! output_file (checkout complete_page)
    = Some (capture playwright_defaults d now png false) /\
    (forall q, q ≠ output_file (checkout complete_page) ->
               fs (final (checkout complete_page) stale_disk) !! q
               = stale_disk !! q).
Proof.
  apply (success_writes_one_png (checkout complete_page) stale_disk).
  vm_compute. reflexivity.
Defined.

(** The image left by an earlier run is gone after a successful run. *)
Example stale_image_is_replaced :
  stale_disk !! output_file (checkout complete_page) = Some stale_image /\
  fs (final (checkout complete_page) stale_disk)
    !! output_file (checkout complete_page)
  = Some {| img_type := png; img_width := 1280; img_height := 720;
            img_pixels := 720 |}.
Proof. split; vm_compute; reflexivity. Qed.

Lemma rerun_overwrites_same_file_witness :
  output_file (checkout (repainted complete_page))
  = output_file (checkout complete_page) /\
  exists d1 now1 d2 now2,
    fetch (world (checkout complete_page)) (index_url (checkout complete_page))
    = Some d1 /\
    fetch (world (checkout (repainted complete_page)))
          (index_url (checkout (repainted complete_page)))
    = Some d2 /\
    fs (final (checkout complete_page) ∅)
    = <[output_file (checkout complete_page)
        := capture playwright_defaults d1 now1 png false]> ∅ /\
    fs (final (checkout (repainted complete_page))
              (fs (final (checkout complete_page) ∅)))
    = <[output_file (checkout complete_page)
        := capture playwright_defaults d2 now2 png false]> ∅ /\
    fs (final (checkout (repainted complete_page))
              (fs (final (checkout complete_page) ∅)))
      !! output_file (checkout complete_page)
    = Some (capture playwright_defaults d2 now2 png false) /\
    dom (fs (final (checkout (repainted complete_page))
                   (fs (final (checkout complete_page) ∅))))
    = dom (fs (final (checkout complete_page) ∅)).
Proof.
  apply (rerun_overwrites_same_file (checkout complete_page)
           (checkout (repainted complete_page)) ∅).
  - reflexivity.
  - vm_compute. reflexivity.
  - vm_compute. reflexivity.
Defined.

(** The second run leaves its own image, not that of the first. *)
Example second_run_replaces_first_image :
  fs (final (checkout complete_page) ∅) !! output_file (checkout complete_page)
  = Some {| img_type := png; img_width := 1280; img_height := 720;
            img_pixels := 720 |} /\
  fs (final (checkout (repainted complete_page))
            (fs (final (checkout complete_page) ∅)))
    !! output_file (checkout complete_page)
  = Some {| img_type := png; img_width := 1280; img_height := 720;
            img_pixels := 721 |}.
Proof. split; vm_compute; reflexivity. Qed.

(** * Further properties of a run *)

Ltac no_dup :=
  repeat (apply NoDup_cons_2; [let H := fresh in intros H; elems H|]);
  apply NoDup_nil_2.

(** Facts about the page that a passed or failed poll gives. *)
Ltac polls :=
  repeat match goal with
    | H : seen_by _ _ _ _ = Some _ |- _ =>
        apply seen_by_Some in H as (? & ? & ? & ?)
    | H : seen_by _ _ _ _ = None |- _ =>
        pose proof (seen_by_None _ _ _ _ H); clear H
    end.

(** X1. A well-formed page passes.  When no library call fails for
    outside reasons, [index.html] loads, each of the first four
    fragments shows within the default timeout of the moment the page
    is loaded and the "Failed Tests" heading within 10000
    milliseconds of it, the run returns, the process exits with
    status 0 and the output file holds a PNG image. *)
Theorem well_formed_page_succeeds env files d :
  (forall c, fault (world env) c = None) ->
  fetch (world env) (index_url env) = Some d ->
  (forall l, l ∈ first_four ->
     exists a, visible_from d l = Some a /\ a <= expect_timeout (lib env)) ->
  (exists a, visible_from d heading_failed = Some a /\ a <= 10000) ->
  outcome env files = Return tt /\
  exit_status env files = 0 /\
  exists img, img_type img = png /\
              fs (final env files) !! output_file env = Some img.
Proof.
  unfold index_url. explore; fragments.
  all: intros Hok Hd Hfour (a5 & Ha5 & Hle5).
  all: try congruence.
  all: pose proof (Hfour _ ltac:(elem_here)) as (a1 & Ha1 & Hle1).
  all: pose proof (Hfour _ ltac:(do 1 apply list_elem_of_further; elem_here))
         as (a2 & Ha2 & Hle2).
  all: pose proof (Hfour _ ltac:(do 2 apply list_elem_of_further; elem_here))
         as (a3 & Ha3 & Hle3).
  all: pose proof (Hfour _ ltac:(do 3 apply list_elem_of_further; elem_here))
         as (a4 & Ha4 & Hle4).
  all: simplify_eq.
  all: polls.
  all: try match goal with
         | H : forall a, visible_from _ ?l = Some a -> _,
           Ha : visible_from _ ?l = Some _ |- _ =>
             apply H in Ha; lia
         end.
  split; [reflexivity|]. split; [reflexivity|].
  eexists (capture _ _ _ png _). split; [reflexivity|].
  unfold write_file. apply lookup_insert_eq.
Qed.

(** X2. What a successful run tells about the page.  When the run
    returns, no library call has failed, [index.html] was loaded, and
    the image on disk was captured at a time [now] by which each of the
    five fragments had shown. *)
Theorem success_means_all_fragments_shown env files :
  outcome env files = Return tt ->
  (forall c, fault (world env) c = None) /\
  exists d now,
    fetch (world env) (index_url env) = Some d /\
    (forall l, l ∈ checked_fragments ->
       exists a, visible_from d l = Some a /\ a <= now) /\
    fs (final env files) !! output_file env
    = Some (capture (lib env) d now png (screenshot_full_page (lib env))).
Proof.
  unfold index_url. explore; fragments.
  all: intros Hout; try discriminate.
  split; [intros []; assumption|].
  polls. do 2 eexists. split; [reflexivity|].
  split; [|unfold write_file; apply lookup_insert_eq].
  intros l Hl. elems Hl; eexists; (split; [eassumption|lia]).
Qed.

(** X3. A page that lacks a fragment fails.  When no library call
    fails for outside reasons and [index.html] loads but one of the
    five fragments never shows, the run ends with the assertion failure
    of one of the five fragments, the process exits with status 1, the
    screenshot step is not reached and the disk is as it was. *)
Theorem missing_fragment_fails env files d l :
  (forall c, fault (world env) c = None) ->
  fetch (world env) (index_url env) = Some d ->
  l ∈ checked_fragments ->
  visible_from d l = None ->
  (exists l' t, l' ∈ checked_fragments /\
                outcome env files = Raise (AssertionError l' t)) /\
  exit_status env files = 1 /\
  (forall p f, EvScreenshot p f ∉ events env files) /\
  fs (final env files) = files.
Proof.
  unfold index_url. explore; fragments.
  all: intros Hok Hd Hl Hnone; try congruence.
  all: simplify_eq.
  all: try (split; [do 2 eexists; split; [|reflexivity]; elem_here|];
            split; [reflexivity|]; split; [|reflexivity];
            intros p f Hp; elems Hp).
  all: polls; elems Hl; congruence.
Qed.

(** X4. The fragments are checked in program order, each at most
    once, and the first failure ends the checks: the assertions of a
    run are an initial part of the five, and only the last of them can
    have failed. *)
Theorem assertions_run_in_program_order env files :
  in_program_order (expects (events env files)) checked_fragments /\
  NoDup (fst <$> expects (events env files)).
Proof.
  explore; fragments.
  all: cbn.
  all: split; [repeat (split; [reflexivity|]); done | no_dup].
Qed.


(** X6. The script writes nowhere else and deletes nothing.  In every
    run, failed or not, each file other than the output file is as it
    was, and the output file is either as it was or holds a PNG image. *)
Theorem other_files_untouched env files :
  (forall q, q ≠ output_file env ->
             fs (final env files) !! q = files !! q) /\
  (fs (final env files) = files \/
   exists img, img_type img = png /\
               fs (final env files) = <[output_file env := img]> files).
Proof.
  explore.
  all: unfold write_file.
  all: split;
    [intros q Hq; first [reflexivity | by apply lookup_insert_ne]|].
  all: first [left; reflexivity
             | right; eexists (capture _ _ _ png _); split; reflexivity].
Qed.

(** X7. Without [index.html] nothing is checked.  When the driver, the
    browser and the page start but the navigation finds no file, the
    run ends with the error of the navigation and exit status 1; no
    fragment is asserted, no screenshot is taken, the disk is as it was
    and the driver is stopped. *)
Theorem missing_index_html_fails_before_any_check env files :
  fault (world env) sync_playwright_start = None ->
  fault (world env) chromium_launch = None ->
  fault (world env) browser_new_page = None ->
  fetch (world env) (index_url env) = None ->
  outcome env files = Raise (Error "net::ERR_FILE_NOT_FOUND") /\
  exit_status env files = 1 /\
  expects (events env files) = [] /\
  (forall p f, EvScreenshot p f ∉ events env files) /\
  fs (final env files) = files /\
  driver_running (final env files) = false.
Proof.
  unfold index_url. explore.
  all: intros H1 H2 H3 H4; try congruence.
  repeat (split; [reflexivity|]).
  split; [intros p f Hp; elems Hp|]. split; reflexivity.
Qed.

(** X8. A failure after the screenshot keeps the image.  When
    [browser.close()] is reached and fails, the run ends with its error
    and exit status 1 although the screenshot has been written; the
    browser is ended all the same, by the exit of the [with]
    statement. *)
Theorem close_failure_keeps_screenshot env files msg :
  fault (world env) browser_close = Some msg ->
  EvClose ∈ events env files ->
  outcome env files = Raise (Error msg) /\
  exit_status env files = 1 /\
  (exists img, img_type img = png /\
               fs (final env files) !! output_file env = Some img) /\
  browser_running (final env files) = false.
Proof.
  explore.
  all: intros Hf Hin; elems Hin; try congruence.
  simplify_eq.
  split; [reflexivity|]. split; [reflexivity|]. split; [|reflexivity].
  eexists (capture _ _ _ png _). split; [reflexivity|].
  unfold write_file. apply lookup_insert_eq.
Qed.

(** ** Where the script reads and writes *)
Section NormalPaths.
Import Posixpath.

Lemma append_cons x (a b : string) : String x a +:+ b = String x (a +:+ b).
Proof. reflexivity. Qed.

Lemma append_assoc (a b c : string) : (a +:+ b) +:+ c = a +:+ b +:+ c.
Proof.
  induction a as [|x a IH]; [reflexivity|].
  rewrite !append_cons. by f_equal.
Qed.

Lemma clean_parts c :
  clean c = true ->
  has_sep c = false /\ c ≠ EmptyString /\ c ≠ "." /\ c ≠ "..".
Proof.
  unfold clean. rewrite !andb_true_iff, !negb_true_iff, !bool_decide_eq_false.
  tauto.
Qed.

Lemma split_no_sep s : has_sep s = false -> split s = [s].
Proof.
  induction s as [|c s IH]; cbn; [reflexivity|].
  intros [Hc Hs]%orb_false_iff. rewrite Hc, (IH Hs). reflexivity.
Qed.

Lemma split_append a b :
  has_sep a = false -> split (a +:+ "/" +:+ b) = a :: split b.
Proof.
  induction a as [|c a IH]; [reflexivity|].
  rewrite append_cons. cbn [has_sep split].
  intros [Hc Ha]%orb_false_iff. rewrite Hc, (IH Ha). reflexivity.
Qed.

Lemma join_sep_cons c c' cs :
  join_sep (c :: c' :: cs) = c +:+ "/" +:+ join_sep (c' :: cs).
Proof. reflexivity. Qed.

(** Splitting undoes joining. *)
Lemma split_join_sep cs :
  cs ≠ [] -> Forall (fun c => has_sep c = false) cs ->
  split (join_sep cs) = cs.
Proof.
  induction cs as [|c [|c' cs] IH]; intros Hne Hcs; [done| |].
  - apply split_no_sep. by inversion Hcs.
  - rewrite join_sep_cons. inversion Hcs as [|? ? Hc Hrest]; subst.
    rewrite (split_append _ _ Hc), IH; done.
Qed.

Lemma join_sep_app a b :
  a ≠ [] -> b ≠ [] ->
  join_sep (a ++ b)%list = join_sep a +:+ "/" +:+ join_sep b.
Proof.
  induction a as [|c [|c' a] IH]; intros Ha Hb; [done| |].
  - destruct b; [done | reflexivity].
  - cbn [app] in *. rewrite !join_sep_cons.
    rewrite IH by done. by rewrite !append_assoc.
Qed.

(** The loop of [normpath] keeps clean components as they are. *)
Lemma norm_step_clean k acc c :
  clean c = true -> norm_step k acc c = (acc ++ [c])%list.
Proof.
  intros (_ & H1 & H2 & H3)%clean_parts. unfold norm_step.
  rewrite (bool_decide_eq_false_2 _ H1), (bool_decide_eq_false_2 _ H2),
    (bool_decide_eq_false_2 _ H3).
  reflexivity.
Qed.

Lemma fold_norm_step_clean k cs acc :
  Forall (fun c => clean c = true) cs ->
  fold_left (norm_step k) cs acc = (acc ++ cs)%list.
Proof.
  revert acc. induction cs as [|c cs IH]; intros acc Hcs; cbn.
  - by rewrite app_nil_r.
  - inversion Hcs; subst. rewrite norm_step_clean by done.
    rewrite IH by done. by rewrite <- (assoc_L (++)).
Qed.

Lemma fold_norm_step_empty k cs acc :
  fold_left (norm_step k) (EmptyString :: cs) acc
  = fold_left (norm_step k) cs acc.
Proof. reflexivity. Qed.

(** A joined list of clean components starts and ends with a character
    that is no separator. *)
Lemma clean_head c :
  clean c = true ->
  exists x r, c = String x r /\ Ascii.eqb x sep = false.
Proof.
  intros (Hs & Hne & _)%clean_parts. destruct c as [|x r]; [done|].
  cbn in Hs. apply orb_false_iff in Hs as [Hx _]. eauto.
Qed.

Lemma join_sep_head c cs :
  clean c = true ->
  exists x r, join_sep (c :: cs) = String x r /\ Ascii.eqb x sep = false.
Proof.
  intros (x & r & -> & Hx)%clean_head. destruct cs as [|c' cs].
  - eauto.
  - rewrite join_sep_cons, append_cons. eauto.
Qed.

Lemma endswith_sep_append a b :
  b ≠ EmptyString -> endswith_sep (a +:+ b) = endswith_sep b.
Proof.
  intros Hb. induction a as [|x a IH]; [reflexivity|].
  rewrite append_cons. cbn [endswith_sep]. rewrite IH.
  destruct (a +:+ b) eqn:E; [|reflexivity].
  destruct a; [done | discriminate].
Qed.

Lemma endswith_sep_no_sep c : has_sep c = false -> endswith_sep c = false.
Proof.
  induction c as [|x c IH]; [reflexivity|]. cbn.
  intros [Hx Hc]%orb_false_iff. destruct c; [exact Hx | by apply IH].
Qed.

Lemma join_sep_nonempty c cs : clean c = true -> join_sep (c :: cs) ≠ EmptyString.
Proof. intros (x & r & -> & _)%(join_sep_head c cs). done. Qed.

Lemma endswith_sep_join_sep cs :
  cs ≠ [] -> Forall (fun c => clean c = true) cs ->
  endswith_sep (join_sep cs) = false.
Proof.
  induction cs as [|c [|c' cs] IH]; intros Hne Hcs; [done| |].
  - inversion Hcs; subst. apply endswith_sep_no_sep.
    by apply clean_parts.
  - inversion Hcs as [|? ? Hc Hrest]; subst. rewrite join_sep_cons.
    rewrite endswith_sep_append.
    + rewrite (endswith_sep_append "/").
      * by apply IH.
      * inversion Hrest; subst. by apply join_sep_nonempty.
    + done.
Qed.

Lemma clean_no_sep cs :
  Forall (fun c => clean c = true) cs ->
  Forall (fun c => has_sep c = false) cs.
Proof.
  intros H. eapply Forall_impl; [exact H|].
  intros c Hc. by apply clean_parts.
Qed.

(** [normpath] leaves a path in normal form as it is. *)
Lemma normpath_rooted cs :
  Forall (fun c => clean c = true) cs -> normpath (rooted cs) = rooted cs.
Proof.
  intros Hcs. destruct cs as [|c cs]; [reflexivity|].
  inversion Hcs as [|? ? Hc Hrest]; subst.
  destruct (join_sep_head c cs Hc) as (x & r & Hj & Hx).
  unfold normpath, rooted. cbv zeta.
  assert (Hk : initial_slashes (String sep (join_sep (c :: cs))) = 1%nat).
  { rewrite Hj. cbn. destruct r; rewrite Hx; reflexivity. }
  rewrite Hk.
  change (split (String sep (join_sep (c :: cs))))
    with (EmptyString :: split (join_sep (c :: cs))).
  rewrite split_join_sep by (done || by apply clean_no_sep).
  rewrite fold_norm_step_empty, fold_norm_step_clean by done.
  reflexivity.
Qed.

Lemma join_rooted comps rel :
  Forall (fun c => clean c = true) comps ->
  Forall (fun c => clean c = true) rel -> rel ≠ [] ->
  join (rooted comps) (join_sep rel) = rooted (comps ++ rel).
Proof.
  intros Hcomps Hrel Hne. destruct rel as [|c rel]; [done|].
  inversion Hrel as [|? ? Hc Hrest]; subst.
  destruct (join_sep_head c rel Hc) as (x & r & Hj & Hx).
  unfold join. rewrite Hj. cbn [startswith_sep]. rewrite Hx. rewrite <- Hj.
  destruct comps as [|c0 comps]; [reflexivity|].
  unfold rooted. rewrite join_sep_app by done.
  assert (He : endswith_sep (String sep (join_sep (c0 :: comps))) = false).
  { change (String sep (join_sep (c0 :: comps)))
      with ("/" +:+ join_sep (c0 :: comps)).
    rewrite endswith_sep_append.
    - by apply endswith_sep_join_sep.
    - inversion Hcomps; subst. by apply join_sep_nonempty. }
  rewrite He. reflexivity.
Qed.

(** [abspath] of a relative path in normal form, in a working
    directory in normal form, appends the one to the other. *)
Lemma abspath_rooted comps rel :
  Forall (fun c => clean c = true) comps ->
  Forall (fun c => clean c = true) rel -> rel ≠ [] ->
  abspath (rooted comps) (join_sep rel) = rooted (comps ++ rel).
Proof.
  intros Hcomps Hrel Hne. unfold abspath.
  assert (Hrelp : isabs (join_sep rel) = false).
  { destruct rel as [|c rel]; [done|]. inversion Hrel; subst.
    destruct (join_sep_head c rel) as (x & r & -> & Hx); done. }
  rewrite Hrelp, join_rooted by done.
  apply normpath_rooted. by apply Forall_app.
Qed.

(** Paths in normal form with different components are different. *)
Lemma rooted_inj cs cs' :
  cs ≠ [] -> cs' ≠ [] ->
  Forall (fun c => clean c = true) cs ->
  Forall (fun c => clean c = true) cs' ->
  rooted cs = rooted cs' -> cs = cs'.
Proof.
  intros Hne Hne' Hcs Hcs' [= Heq].
  rewrite <- (split_join_sep cs), <- (split_join_sep cs'), Heq;
    done || by apply clean_no_sep.
Qed.

End NormalPaths.

(** The two paths of the script below a working directory in normal
    form. *)
Lemma paths_below_working_directory env comps :
  Forall (fun c => Posixpath.clean c = true) comps ->
  cwd (world env) = Posixpath.rooted comps ->
  Posixpath.abspath (cwd (world env)) "index.html"
  = Posixpath.rooted (comps ++ ["index.html"]) /\
  output_file env
  = Posixpath.rooted
      (comps ++ ["jules-scratch"; "verification"; "verification.png"]) /\
  Posixpath.rooted
    (comps ++ ["jules-scratch"; "verification"; "verification.png"])
  ≠ Posixpath.rooted (comps ++ ["index.html"]).
Proof.
  intros Hcomps Hcwd.
  split; [|split].
  - rewrite Hcwd.
    apply (abspath_rooted comps ["index.html"]); [done| |done].
    repeat constructor.
  - unfold output_file, resolve. rewrite Hcwd.
    apply (abspath_rooted comps
             ["jules-scratch"; "verification"; "verification.png"]);
      [done| |done].
    repeat constructor.
  - intros Heq. apply rooted_inj in Heq.
    + apply (f_equal length) in Heq. rewrite !length_app in Heq.
      cbn in Heq. lia.
    + by destruct comps.
    + by destruct comps.
    + apply Forall_app. split; [done|]. repeat constructor.
    + apply Forall_app. split; [done|]. repeat constructor.
Qed.

(** X9. For a working directory in normal form (an absolute path of
    clean components, as [os.getcwd()] gives it): a run navigates
    nowhere but to the file [index.html] right below it, and does so
    once the driver, the browser and the page have started; a run that
    returns has put the captured image into
    [jules-scratch/verification/verification.png] below it; and no run
    changes any other file, so the script never writes over the
    [index.html] it reads. *)
Theorem reads_and_writes_below_working_directory env files comps :
  Forall (fun c => Posixpath.clean c = true) comps ->
  cwd (world env) = Posixpath.rooted comps ->
  (forall url, EvGoto url ∈ events env files ->
     url = "file://" +:+ Posixpath.rooted (comps ++ ["index.html"])) /\
  (fault (world env) sync_playwright_start = None ->
   fault (world env) chromium_launch = None ->
   fault (world env) browser_new_page = None ->
   EvGoto ("file://" +:+ Posixpath.rooted (comps ++ ["index.html"]))
     ∈ events env files) /\
  (outcome env files = Return tt ->
   exists d now,
     fetch (world env)
           ("file://" +:+ Posixpath.rooted (comps ++ ["index.html"]))
     = Some d /\
     fs (final env files)
     = <[Posixpath.rooted
           (comps ++ ["jules-scratch"; "verification"; "verification.png"])
         := capture (lib env) d now png (screenshot_full_page (lib env))]>
         files) /\
  (forall q,
     q ≠ Posixpath.rooted
           (comps ++ ["jules-scratch"; "verification"; "verification.png"]) ->
     fs (final env files) !! q = files !! q) /\
  fs (final env files) !! Posixpath.rooted (comps ++ ["index.html"])
  = files !! Posixpath.rooted (comps ++ ["index.html"]).
Proof.
  intros Hcomps Hcwd.
  destruct (paths_below_working_directory env comps Hcomps Hcwd)
    as (Hin & Hout & Hne).
  rewrite <- Hin, <- Hout in *. clear Hin Hout Hcwd Hcomps.
  unfold output_file, resolve in *. explore.
  all: unfold write_file.
  all: split; [intros url Hu; elems Hu; reflexivity|].
  all: split; [intros H1 H2 H3; first [congruence | elem_here]|].
  all: split; [intros Ho; try discriminate; eauto|].
  all: split;
    [intros q Hq; first [reflexivity | by apply lookup_insert_ne]|].
  all: first [reflexivity | by apply lookup_insert_ne].
Qed.

(** ** Concrete runs for the further properties *)

Lemma well_formed_page_succeeds_witness :
  outcome (checkout complete_page) ∅ = Return tt /\
  exit_status (checkout complete_page) ∅ = 0 /\
  exists img, img_type img = png /\
              fs (final (checkout complete_page) ∅)
                !! output_file (checkout complete_page) = Some img.
Proof.
  apply (well_formed_page_succeeds (checkout complete_page) ∅ complete_page).
  - intros c. reflexivity.
  - reflexivity.
  - unfold first_four. intros l Hl. exists 0.
    elems Hl; (split; [reflexivity | discriminate]).
  - exists 0. split; [reflexivity | discriminate].
Defined.

Lemma success_means_all_fragments_shown_witness :
  (forall c, fault (world (checkout slow_page)) c = None) /\
  exists d now,
    fetch (world (checkout slow_page)) (index_url (checkout slow_page))
    = Some d /\
    (forall l, l ∈ checked_fragments ->
       exists a, visible_from d l = Some a /\ a <= now) /\
    fs (final (checkout slow_page) ∅) !! output_file (checkout slow_page)
    = Some (capture playwright_defaults d now png false).
Proof.
  apply (success_means_all_fragments_shown (checkout slow_page) ∅).
  vm_compute. reflexivity.
Defined.

Lemma missing_fragment_fails_witness :
  (exists l' t, l' ∈ checked_fragments /\
                outcome (checkout page_without_status) ∅
                = Raise (AssertionError l' t)) /\
  exit_status (checkout page_without_status) ∅ = 1 /\
  (forall p f, EvScreenshot p f ∉ events (checkout page_without_status) ∅) /\
  fs (final (checkout page_without_status) ∅) = ∅.
Proof.
  apply (missing_fragment_fails (checkout page_without_status) ∅
           page_without_status text_status).
  - intros c. reflexivity.
  - reflexivity.
  - unfold checked_fragments, first_four. cbn [app]. elem_here.
  - reflexivity.
Defined.

Lemma missing_index_html_fails_before_any_check_witness :
  outcome empty_checkout ∅ = Raise (Error "net::ERR_FILE_NOT_FOUND") /\
  exit_status empty_checkout ∅ = 1 /\
  expects (events empty_checkout ∅) = [] /\
  (forall p f, EvScreenshot p f ∉ events empty_checkout ∅) /\
  fs (final empty_checkout ∅) = ∅ /\
  driver_running (final empty_checkout ∅) = false.
Proof.
  apply (missing_index_html_fails_before_any_check empty_checkout ∅);
    reflexivity.
Defined.

Lemma close_failure_keeps_screenshot_witness :
  outcome (checkout_failing_close complete_page) ∅
  = Raise (Error "Target closed") /\
  exit_status (checkout_failing_close complete_page) ∅ = 1 /\
  (exists img,
      img_type img = png /\
      fs (final (checkout_failing_close complete_page) ∅)
        !! output_file (checkout_failing_close complete_page) = Some img) /\
  browser_running (final (checkout_failing_close complete_page) ∅) = false.
Proof.
  apply (close_failure_keeps_screenshot
           (checkout_failing_close complete_page) ∅ "Target closed").
  - reflexivity.
  - vm_compute. elem_here.
Defined.

Lemma reads_and_writes_below_working_directory_witness :
  (forall url, EvGoto url ∈ events (checkout complete_page) stale_disk ->
     url = "file://" +:+
           Posixpath.rooted (["home"; "dev"; "SMPST"] ++ ["index.html"])) /\
  (fault (world (checkout complete_page)) sync_playwright_start = None ->
   fault (world (checkout complete_page)) chromium_launch = None ->
   fault (world (checkout complete_page)) browser_new_page = None ->
   EvGoto ("file://" +:+
           Posixpath.rooted (["home"; "dev"; "SMPST"] ++ ["index.html"]))
     ∈ events (checkout complete_page) stale_disk) /\
  (outcome (checkout complete_page) stale_disk = Return tt ->
   exists d now,
     fetch (world (checkout complete_page))
           ("file://" +:+
            Posixpath.rooted (["home"; "dev"; "SMPST"] ++ ["index.html"]))
     = Some d /\
     fs (final (checkout complete_page) stale_disk)
     = <[Posixpath.rooted
           (["home"; "dev"; "SMPST"]
            ++ ["jules-scratch"; "verification"; "verification.png"])
         := capture playwright_defaults d now png false]> stale_disk) /\
  (forall q,
     q ≠ Posixpath.rooted
           (["home"; "dev"; "SMPST"]
            ++ ["jules-scratch"; "verification"; "verification.png"]) ->
     fs (final (checkout complete_page) stale_disk) !! q = stale_disk !! q) /\
  fs (final (checkout complete_page) stale_disk)
    !! Posixpath.rooted (["home"; "dev"; "SMPST"] ++ ["index.html"])
  = stale_disk
    !! Posixpath.rooted (["home"; "dev"; "SMPST"] ++ ["index.html"]).
Proof.
  apply (reads_and_writes_below_working_directory
           (checkout complete_page) stale_disk ["home"; "dev"; "SMPST"]).
  - repeat constructor.
  - reflexivity.
Defined.

